(** * Agent Adam: command interpretation and channel formatting

    A shallow embedding of [src/AgentAdam/CommandProcessor.mo]
    (module [CommandProcessor]), of the types in [src/AgentAdam/Types.mo]
    and of the response formatters of module [GHLIntegration]
    ([src/frontend/components/Chat.js]).

    Modelling choices:
    - Motoko [Text] is [string]; characters are ASCII, so
      [Text.toLowercase] is the ASCII lower-casing and [size] is [length].
    - Motoko [Float] is modelled by exact rationals [Q]; the code only adds,
      multiplies and divides non-negative values and compares with [1.0].
    - [Nat] is [nat]; arrays built with [Buffer] are lists in insertion
      order. *)

From Stdlib Require Import Bool List String Ascii Arith Lia.
From Stdlib Require Import QArith Qround Lqa.
From Stdlib Require Import Numbers.DecimalString.
Import ListNotations.
Open Scope string_scope.

(* ------------------------------------------------------------------ *)
(** ** Types.mo *)

Module Types.

Record CommandContext := {
  locationId : string;
  sourceMetadata : option string;
  priority : nat;
  retryCount : nat
}.

Inductive ExecutionStatus :=
| Pending
| Processing
| Completed
| Failed (reason : string)
| PartialSuccess (warnings : list string).

Record ExecutedAction := {
  actionType : string;
  description : string;
  result : string;
  timestamp : Z
}.

Record ExecutionResult := {
  commandId : string;
  status : ExecutionStatus;
  actions : list ExecutedAction;
  insights : list string;
  nextSteps : list string;
  duration : nat
}.

Record VoiceResponse := {
  spokenText : string;
  v_actions : list string;
  shouldEndCall : bool;
  transferNumber : option string
}.

Inductive Intent :=
| Create (objectType : string)
| Update (objectType : string) (identifier : string)
| Delete (objectType : string) (identifier : string)
| Query (objectType : string) (filters : list string)
| Automation (triggerType : string) (conditions : list string)
| Unknown.

Record Entity := {
  entityType : string;
  value : string;
  e_confidence : Q
}.

Record CommandInterpretation := {
  intent : Intent;
  entities : list Entity;
  confidence : Q;
  requiresApproval : bool
}.

Inductive CommandSource :=
| GHLWebhook (webhookId : string) (eventType : string)
| GHLVoiceAgent (sessionId : string) (callerId : string)
| GHLChatAgent (conversationId : string) (contactId : string)
| AdminInterface (userId : string) (adminLocationId : string).

Record Command := {
  id : string;
  source : CommandSource;
  instruction : string;
  context : CommandContext;
  c_timestamp : Z
}.

Record ChatResponse := {
  message : string;
  quickReplies : list string;
  attachments : list string;
  shouldClose : bool
}.

Record AdminResponse := {
  summary : string;
  details : ExecutionResult;
  recommendedActions : list string;
  alerts : list string
}.

Record UserPreference := {
  userId : string;
  p_locationId : string;
  preferences : list (string * string);
  lastUpdated : Z
}.

(** [Result.Result<T, E>] of mo:base. *)
Inductive Result (T E : Type) := ok (x : T) | err (e : E).
Arguments ok {T E} x.
Arguments err {T E} e.

End Types.

Import Types.

(* ------------------------------------------------------------------ *)
(** ** The [Text] primitives used by the code (mo:base/Text) *)

Module Text.

(** [Text.toLowercase] on ASCII characters. *)
Definition lower_char (c : ascii) : ascii :=
  let n := nat_of_ascii c in
  if (65 <=? n)%nat && (n <=? 90)%nat then ascii_of_nat (n + 32)%nat else c.

Fixpoint toLowercase (s : string) : string :=
  match s with
  | EmptyString => EmptyString
  | String c s' => String (lower_char c) (toLowercase s')
  end.

(** [Text.split(t, #char c)]: the pieces between occurrences of [c],
    empty pieces included. [cur] is the piece being read. *)
Fixpoint split_aux (c : ascii) (cur : string) (s : string) : list string :=
  match s with
  | EmptyString => [cur]
  | String a s' =>
      if Ascii.eqb a c then cur :: split_aux c EmptyString s'
      else split_aux c (cur ++ String a EmptyString) s'
  end.

Definition split (s : string) (c : ascii) : list string := split_aux c EmptyString s.

(** [Text.trim(t, #char c)]: drop leading and trailing [c]. *)
Fixpoint trimStart (c : ascii) (s : string) : string :=
  match s with
  | String a s' => if Ascii.eqb a c then trimStart c s' else s
  | EmptyString => EmptyString
  end.

Definition rev_string (s : string) : string :=
  string_of_list_ascii (rev (list_ascii_of_string s)).

Definition trim (s : string) (c : ascii) : string :=
  rev_string (trimStart c (rev_string (trimStart c s))).

(** [Text.contains(t, #text p)]: [p] is a substring of [t]. *)
Fixpoint contains (s : string) (p : string) : bool :=
  prefix p s ||
  match s with
  | EmptyString => false
  | String _ s' => contains s' p
  end.

(** [Array.find(xs, func(x) = x == w) != null]. *)
Definition mem (w : string) (xs : list string) : bool :=
  existsb (String.eqb w) xs.

End Text.

(* ------------------------------------------------------------------ *)
(** ** CommandProcessor.mo *)

Module CommandProcessor.

Definition stopWords : list string :=
  [ "the"; "a"; "an"; "and"; "or"; "but"; "in"; "on"; "at"; "to"; "for";
    "of"; "with"; "by"; "from"; "up"; "about"; "into"; "through"; "during";
    "before"; "after"; "above"; "below"; "between"; "among"; "is"; "are";
    "was"; "were"; "be"; "been"; "being"; "have"; "has"; "had"; "do"; "does";
    "did"; "will"; "would"; "could"; "should"; "may"; "might"; "must"; "can" ].

Definition ghlEntities : list string :=
  [ "contact"; "lead"; "opportunity"; "pipeline"; "workflow"; "campaign";
    "appointment"; "calendar"; "form"; "funnel"; "website"; "automation";
    "tag"; "trigger"; "action"; "email"; "sms"; "call"; "task"; "note";
    "invoice"; "payment"; "subscription"; "location"; "user"; "agency" ].

Definition createKeywords : list string :=
  ["create"; "build"; "make"; "add"; "new"; "generate"; "setup"; "start"].
Definition updateKeywords : list string :=
  ["update"; "modify"; "change"; "edit"; "revise"; "alter"; "adjust"].
Definition deleteKeywords : list string :=
  ["delete"; "remove"; "cancel"; "stop"; "end"; "terminate"; "clear"].
Definition queryKeywords : list string :=
  ["show"; "get"; "list"; "find"; "search"; "view"; "display"; "check"].
Definition automationKeywords : list string :=
  ["automate"; "trigger"; "activate"; "schedule"; "set"; "configure"].

Definition isStopWord (word : string) : bool := Text.mem word stopWords.

(** The [for] loop of [extractKeywords] over the pieces. *)
Definition keepWord (word : string) : list string :=
  let cleanWord := Text.trim word " "%char in
  if (2 <? String.length cleanWord)%nat && negb (isStopWord cleanWord)
  then [cleanWord] else [].

Definition extractKeywords (instruction : string) : list string :=
  flat_map keepWord (Text.split (Text.toLowercase instruction) " "%char).

Definition hasAnyKeyword (words keywords : list string) : bool :=
  existsb (fun word => Text.mem word keywords) words.

Definition findGHLEntity (words : list string) : string :=
  match find (fun word => Text.mem word ghlEntities) words with
  | Some entity => entity
  | None => "unknown"
  end.

(** The one-character text made of a double quote. *)
Definition dquote : string := String "034"%char EmptyString.

Definition extractIdentifier (instruction : string) : string :=
  if Text.contains instruction dquote then "quoted_identifier"
  else if Text.contains instruction "id:" then "extracted_id"
  else "auto_detected".

Definition filterWords : list string :=
  ["today"; "yesterday"; "week"; "month"; "active"; "inactive"; "new"; "old"].

Definition extractFilters (words : list string) : list string :=
  filter (fun word => Text.mem word filterWords) words.

Definition triggerTypes : list string :=
  ["email"; "form"; "webhook"; "schedule"; "tag"; "status"].

Definition findTriggerType (words : list string) : string :=
  match find (fun word => Text.mem word triggerTypes) words with
  | Some trigger => trigger
  | None => "manual"
  end.

(** Each [if] appends to the buffer independently. *)
Definition extractConditions (instruction : string) : list string :=
  (if Text.contains instruction "when" then ["conditional"] else []) ++
  (if Text.contains instruction "if" then ["conditional"] else []) ++
  (if Text.contains instruction "after" then ["temporal"] else []) ++
  (if Text.contains instruction "before" then ["temporal"] else []).

Definition detectIntent (words : list string) (instruction : string) : Intent :=
  let lowerInstruction := Text.toLowercase instruction in
  if hasAnyKeyword words createKeywords then
    Create (findGHLEntity words)
  else if hasAnyKeyword words updateKeywords then
    Update (findGHLEntity words) (extractIdentifier lowerInstruction)
  else if hasAnyKeyword words deleteKeywords then
    Delete (findGHLEntity words) (extractIdentifier lowerInstruction)
  else if hasAnyKeyword words queryKeywords then
    Query (findGHLEntity words) (extractFilters words)
  else if hasAnyKeyword words automationKeywords then
    Automation (findTriggerType words) (extractConditions lowerInstruction)
  else Unknown.

Definition timeWords : list string :=
  ["today"; "tomorrow"; "yesterday"; "week"; "month"; "year"].

Definition isNumberWord (word : string) : bool :=
  String.eqb word "1" || String.eqb word "2" || String.eqb word "5" ||
  String.eqb word "10".

(** The three [for] loops of [extractEntities] have one shape: scan the
    words in order and add an entity of a fixed type and confidence for each
    word the test accepts. *)
Definition entityPass (matches : string -> bool) (ty : string) (conf : Q)
    (words : list string) : list Entity :=
  flat_map (fun word =>
    if matches word
    then [{| entityType := ty; value := word; e_confidence := conf |}]
    else []) words.

Definition ghlPass (words : list string) : list Entity :=
  entityPass (fun word => Text.mem word ghlEntities) "ghl_object" (9#10) words.

Definition timePass (words : list string) : list Entity :=
  entityPass (fun word => Text.mem word timeWords) "time_reference" (8#10) words.

Definition numberPass (words : list string) : list Entity :=
  entityPass isNumberWord "number" (7#10) words.

Definition extractEntities (words : list string) (instruction : string) : list Entity :=
  ghlPass words ++ timePass words ++ numberPass words.

Definition Q_of_nat (n : nat) : Q := inject_Z (Z.of_nat n).

(** [Array.fold] counting the ["ghl_object"] entities. *)
Definition ghlEntityCount (entities : list Entity) : nat :=
  fold_left (fun acc entity =>
    if String.eqb (entityType entity) "ghl_object" then S acc else acc) entities 0%nat.

Definition calculateConfidence (i : Intent) (entities : list Entity)
    (words : list string) : Q :=
  let baseConfidence := match i with Unknown => 1#10 | _ => 6#10 end in
  let entityBoost := Q_of_nat (List.length entities) * (1#10) in
  let baseConfidence := baseConfidence + entityBoost in
  let wordCount := Q_of_nat (List.length words) in
  let baseConfidence :=
    if negb (Qle_bool wordCount 0) then
      let density := Q_of_nat (ghlEntityCount entities) / wordCount in
      baseConfidence + density * (2#10)
    else baseConfidence in
  if negb (Qle_bool baseConfidence 1) then 1 else baseConfidence.

Definition shouldRequireApproval (i : Intent) (context : CommandContext) : bool :=
  match i with
  | Delete _ _ => true
  | Create objectType =>
      String.eqb objectType "workflow" || String.eqb objectType "campaign" ||
      String.eqb objectType "automation"
  | Automation _ _ => true
  | _ => (3 <=? priority context)%nat
  end.

Definition interpretCommand (instruction : string) (context : CommandContext)
    : CommandInterpretation :=
  let words := extractKeywords instruction in
  let i := detectIntent words instruction in
  let es := extractEntities words instruction in
  {| intent := i;
     entities := es;
     confidence := calculateConfidence i es words;
     requiresApproval := shouldRequireApproval i context |}.

End CommandProcessor.

(* ------------------------------------------------------------------ *)
(** ** Module GHLIntegration (Chat.js): voice and workflow formatting *)

Module GHLIntegration.

(** [Nat.toText]: decimal rendering. *)
Definition natToText (n : nat) : string := NilZero.string_of_uint (Nat.to_uint n).

Record WorkflowDecision := {
  decision : string;
  nextStep : string;
  variables : list (string * string)
}.

Definition generateVoiceActions (acts : list ExecutedAction) : list string :=
  map (fun action =>
    let t := actionType action in
    if String.eqb t "create_contact" then "contact_created"
    else if String.eqb t "send_email" then "email_sent"
    else if String.eqb t "schedule_appointment" then "appointment_scheduled"
    else if String.eqb t "update_opportunity" then "opportunity_updated"
    else "action_completed") acts.

Definition generateSpokenText (r : ExecutionResult) : string :=
  match status r with
  | Completed =>
      match insights r with
      | first :: _ => first
      | [] => "I've completed your request successfully."
      end
  | Failed reason => "I'm sorry, but I encountered an issue: " ++ reason
  | Processing => "I'm currently processing your request. Please hold on."
  | _ => "Your request is being handled."
  end.

Definition shouldEndVoiceCall (r : ExecutionResult) : bool :=
  match status r with
  | Failed _ => true
  | _ => false
  end.

(** The loop returns at the first action of type ["transfer_to_human"]. *)
Definition getTransferNumber (r : ExecutionResult) : option string :=
  if existsb (fun action => String.eqb (actionType action) "transfer_to_human")
       (actions r)
  then Some "+1234567890" else None.

Definition formatVoiceResponse (r : ExecutionResult) : VoiceResponse :=
  {| spokenText := generateSpokenText r;
     v_actions := generateVoiceActions (actions r);
     shouldEndCall := shouldEndVoiceCall r;
     transferNumber := getTransferNumber r |}.

Definition formatExecutionStatus (s : ExecutionStatus) : string :=
  match s with
  | Pending => "pending"
  | Processing => "processing"
  | Completed => "completed"
  | Failed _ => "failed"
  | PartialSuccess _ => "partial_success"
  end.

Definition generateWorkflowVariables (r : ExecutionResult) : list (string * string) :=
  [("execution_status", formatExecutionStatus (status r));
   ("command_id", commandId r);
   ("duration", natToText (duration r))].

Definition generateWorkflowDecision (r : ExecutionResult) : WorkflowDecision :=
  match status r with
  | Completed =>
      {| decision := "continue"; nextStep := "next";
         variables := generateWorkflowVariables r |}
  | Failed _ =>
      {| decision := "stop"; nextStep := "error"; variables := [] |}
  | _ =>
      {| decision := "wait"; nextStep := "pending"; variables := [] |}
  end.

(** [Text.join(sep, iter)]. *)
Definition join (sep : string) (xs : list string) : string := String.concat sep xs.




(** A [switch] on a text value: the first equal literal wins. *)
Definition mapEventToCommand (eventType : string) : string :=
  if String.eqb eventType "contact.created" then "A new contact has been created"
  else if String.eqb eventType "contact.updated" then "A contact has been updated"
  else if String.eqb eventType "opportunity.created" then "A new opportunity has been created"
  else if String.eqb eventType "opportunity.won" then "An opportunity has been won"
  else if String.eqb eventType "opportunity.lost" then "An opportunity has been lost"
  else if String.eqb eventType "form.submitted" then "A form has been submitted"
  else if String.eqb eventType "appointment.scheduled" then "An appointment has been scheduled"
  else if String.eqb eventType "workflow.completed" then "A workflow has completed"
  else "Unknown event: " ++ eventType.

Definition validateLocationId (locationId : string) : bool :=
  (0 <? String.length locationId)%nat && (String.length locationId <? 100)%nat.

Definition getSuccessTemplate (channel : string) : string :=
  if String.eqb channel "voice" then "Great! I've completed that task for you."
  else if String.eqb channel "chat" then "✅ Done! Your request has been processed successfully."
  else if String.eqb channel "admin" then "Task completed successfully. Check the details below."
  else "Request processed successfully.".

Definition getErrorTemplate (channel : string) (error : string) : string :=
  if String.eqb channel "voice" then "I'm sorry, I encountered an issue: " ++ error
  else if String.eqb channel "chat" then "❌ Oops! Something went wrong: " ++ error
  else if String.eqb channel "admin" then "Error: " ++ error
  else "Error: " ++ error.

Definition getSuggestionTemplate (suggestions : list string) : string :=
  if (0 <? List.length suggestions)%nat
  then "Here are some suggestions: " ++ join ", " suggestions
  else "Let me know if you need help with anything else!".

(** The loop keeps the steps shorter than 30, then falls back to the
    three default replies when none was kept. *)
Definition generateQuickReplies (nextSteps : list string) : list string :=
  match filter (fun step => (String.length step <? 30)%nat) nextSteps with
  | [] => ["Got it!"; "Tell me more"; "What's next?"]
  | replies => replies
  end.

Definition newline : string := String "010"%char EmptyString.

Definition generateChatMessage (r : ExecutionResult) : string :=
  match status r with
  | Completed =>
      "✅ " ++ getSuccessTemplate "chat" ++ newline ++ newline ++
      join newline (insights r)
  | Failed reason => getErrorTemplate "chat" reason
  | _ => "⏳ Processing your request..."
  end.

Definition shouldCloseChat (r : ExecutionResult) : bool := false.

Definition formatChatResponse (r : ExecutionResult) : ChatResponse :=
  {| message := generateChatMessage r;
     quickReplies := generateQuickReplies (nextSteps r);
     attachments := [];
     shouldClose := shouldCloseChat r |}.

Definition formatWorkflowResponse (r : ExecutionResult) : string :=
  "{ " ++ CommandProcessor.dquote ++ "status" ++ CommandProcessor.dquote ++ ": " ++ CommandProcessor.dquote ++
  formatExecutionStatus (status r) ++ CommandProcessor.dquote ++ ", " ++ CommandProcessor.dquote ++ "message" ++
  CommandProcessor.dquote ++ ": " ++ CommandProcessor.dquote ++ join ", " (insights r) ++ CommandProcessor.dquote ++ " }".

End GHLIntegration.

(* ------------------------------------------------------------------ *)
(** ** The [AgentAdam] actor (second part of CommandProcessor.mo)

    A [HashMap<Text, V>] is an association list: [get] returns the value of
    the key, [put] replaces the value of a present key and adds an absent
    one; [entries] lists the pairs ([HashMap] lists them in bucket order,
    this model in insertion order). [Time.now()] is constant during one
    message, so each shared function takes it as the argument [now]; an
    [await] of the actor's own [processCommand] runs it on the state. *)

Module AgentAdam.

Definition Map (V : Type) := list (string * V).

Fixpoint get {V} (m : Map V) (k : string) : option V :=
  match m with
  | [] => None
  | (k', v) :: m' => if String.eqb k k' then Some v else get m' k
  end.

Fixpoint put {V} (m : Map V) (k : string) (v : V) : Map V :=
  match m with
  | [] => [(k, v)]
  | (k', v') :: m' =>
      if String.eqb k k' then (k, v) :: m' else (k', v') :: put m' k v
  end.

(** [HashMap.fromIter]: [put] each pair in order into an empty map. *)
Definition fromIter {V} (entries : list (string * V)) : Map V :=
  fold_left (fun m kv => put m (fst kv) (snd kv)) entries [].

Record State := {
  commandHistory : list (string * Command);
  executionResults : list (string * ExecutionResult);
  userPreferences : list (string * UserPreference);
  commands : Map Command;
  results : Map ExecutionResult;
  prefs : Map UserPreference
}.

Definition initialState : State :=
  {| commandHistory := []; executionResults := []; userPreferences := [];
     commands := []; results := []; prefs := [] |}.

Definition preupgrade (st : State) : State :=
  {| commandHistory := commands st; executionResults := results st;
     userPreferences := prefs st;
     commands := commands st; results := results st; prefs := prefs st |}.

Definition postupgrade (st : State) : State :=
  {| commandHistory := []; executionResults := []; userPreferences := [];
     commands := fromIter (commandHistory st);
     results := fromIter (executionResults st);
     prefs := fromIter (userPreferences st) |}.

Definition processCommand (cmd : Command) (st : State)
    : Result ExecutionResult string * State :=
  let st1 := {| commandHistory := commandHistory st;
                executionResults := executionResults st;
                userPreferences := userPreferences st;
                commands := put (commands st) (id cmd) cmd;
                results := results st; prefs := prefs st |} in
  let r := {| commandId := id cmd; status := Completed; actions := [];
              insights := ["Command processed successfully"];
              nextSteps := ["Review execution result"]; duration := 100 |} in
  (ok r,
   {| commandHistory := commandHistory st1;
      executionResults := executionResults st1;
      userPreferences := userPreferences st1;
      commands := commands st1;
      results := put (results st1) (id cmd) r; prefs := prefs st1 |}).

(** [Int.toText]. *)
Definition intToText (z : Z) : string := NilZero.string_of_int (Z.to_int z).

Definition mkCommand (cid : string) (src : CommandSource) (instr : string)
    (loc : string) (meta : string) (prio : nat) (now : Z) : Command :=
  {| id := cid; source := src; instruction := instr;
     context := {| locationId := loc; sourceMetadata := Some meta;
                   priority := prio; retryCount := 0 |};
     c_timestamp := now |}.

Definition handleWebhook (webhookId eventType payload loc : string) (now : Z)
    (st : State) : Result string string * State :=
  let command := mkCommand (webhookId ++ "_" ++ intToText now)
                   (GHLWebhook webhookId eventType) payload loc eventType 1 now in
  match processCommand command st with
  | (ok _, st') => (ok "Webhook processed successfully", st')
  | (err msg, st') => (err msg, st')
  end.

Definition processVoiceCommand (sessionId callerId transcript loc : string) (now : Z)
    (st : State) : Result VoiceResponse string * State :=
  let command := mkCommand (sessionId ++ "_" ++ intToText now)
                   (GHLVoiceAgent sessionId callerId) transcript loc callerId 2 now in
  match processCommand command st with
  | (ok _, st') =>
      (ok {| spokenText := "I've processed your request successfully.";
             v_actions := ["confirm_action"]; shouldEndCall := false;
             transferNumber := None |}, st')
  | (err msg, st') => (err msg, st')
  end.

Definition processChatCommand (conversationId contactId msg loc : string) (now : Z)
    (st : State) : Result ChatResponse string * State :=
  let command := mkCommand (conversationId ++ "_" ++ intToText now)
                   (GHLChatAgent conversationId contactId) msg loc contactId 2 now in
  match processCommand command st with
  | (ok _, st') =>
      (ok {| message := "I've processed your request. Here's what I found.";
             quickReplies := ["Got it"; "Tell me more"; "What's next?"];
             attachments := []; shouldClose := false |}, st')
  | (err m, st') => (err m, st')
  end.

Definition processAdminCommand (userId loc instr : string) (now : Z)
    (st : State) : Result AdminResponse string * State :=
  let command := mkCommand (userId ++ "_" ++ intToText now)
                   (AdminInterface userId loc) instr loc userId 3 now in
  match processCommand command st with
  | (ok r, st') =>
      (ok {| summary := "Command executed successfully"; details := r;
             recommendedActions := ["Review results"; "Monitor progress"];
             alerts := [] |}, st')
  | (err m, st') => (err m, st')
  end.

(** The loop of [getCommandHistory]: add while [count < limit]. *)
Fixpoint historyLoop (limit count : nat) (entries : list (string * Command))
    : list Command :=
  match entries with
  | [] => []
  | (_, command) :: rest =>
      if (count <? limit)%nat then command :: historyLoop limit (S count) rest
      else historyLoop limit count rest
  end.

Definition getCommandHistory (limit : nat) (st : State) : list Command :=
  historyLoop limit 0 (commands st).

Definition getExecutionResult (commandId : string) (st : State) : option ExecutionResult :=
  get (results st) commandId.

Definition getTotalCommands (st : State) : nat := List.length (commands st).

End AgentAdam.

(* ------------------------------------------------------------------ *)
(** ** Specification side *)

Import CommandProcessor GHLIntegration.

(** A context as built by [handleWebhook] apart from its priority. *)
Definition exampleContext (p : nat) : CommandContext :=
  {| locationId := "loc_1"; sourceMetadata := None; priority := p; retryCount := 0 |}.

(** Sample inputs for the properties below. *)
Definition sampleResult : ExecutionResult :=
  {| commandId := "c1"; status := Completed; actions := [];
     insights := ["3 contacts updated"; "no errors"];
     nextSteps := ["Review contacts"]; duration := 100 |}.

Definition four_entities : string := "create a workflow email campaign for today".

Definition sampleCommand (cid instr : string) : Command :=
  AgentAdam.mkCommand cid (AdminInterface "u1" "loc_1") instr "loc_1" "u1" 3 0.

Definition twoCommandState : AgentAdam.State :=
  snd (AgentAdam.processCommand (sampleCommand "c2" "show contacts")
         (snd (AgentAdam.processCommand (sampleCommand "c1" "delete the opportunity")
                 AgentAdam.initialState))).

(** The approval table of the specification, written from its words:
    Delete and Automation always; Create iff the object type is one of
    workflow, campaign, automation; Update, Query and Unknown iff the
    priority is at least 3. *)
Definition approvalTable (i : Intent) (context : CommandContext) : bool :=
  match i with
  | Delete _ _ | Automation _ _ => true
  | Create objectType => Text.mem objectType ["workflow"; "campaign"; "automation"]
  | Update _ _ | Query _ _ | Unknown => (3 <=? priority context)%nat
  end.

Definition matchesNoFamily (words : list string) : bool :=
  negb (existsb (hasAnyKeyword words)
          [createKeywords; updateKeywords; deleteKeywords; queryKeywords;
           automationKeywords]).

Definition isTypeOf (ty : string) (e : Entity) : bool := String.eqb (entityType e) ty.

(** Every character of a text passes a test. *)
Fixpoint sall (f : ascii -> bool) (s : string) : bool :=
  match s with
  | EmptyString => true
  | String a s' => f a && sall f s'
  end.

Definition isLowered (c : ascii) : bool := Ascii.eqb (Text.lower_char c) c.
Definition notSpace (c : ascii) : bool := negb (Ascii.eqb c " "%char).

(** What the tokenizer guarantees of each keyword. *)
Definition goodKeyword (w : string) : bool :=
  (2 <? String.length w)%nat && negb (isStopWord w) &&
  sall isLowered w && sall notSpace w.

(* ------------------------------------------------------------------ *)
(** ** Facts about the model *)

Module Facts.

Lemma keepWord_long w x : In x (keepWord w) -> (2 < String.length x)%nat.
Proof.
  unfold keepWord. set (c := Text.trim w " "%char).
  destruct ((2 <? String.length c)%nat && negb (isStopWord c)) eqn:E;
    simpl; [|tauto].
  intros [<-|[]]. apply andb_true_iff in E as [E _].
  apply Nat.ltb_lt in E. exact E.
Qed.

Lemma extractKeywords_long instruction x :
  In x (extractKeywords instruction) -> (2 < String.length x)%nat.
Proof.
  unfold extractKeywords. rewrite in_flat_map.
  intros [w [_ H]]. exact (keepWord_long w x H).
Qed.

Lemma isNumberWord_long w : (2 < String.length w)%nat -> isNumberWord w = false.
Proof.
  intro H. unfold isNumberWord.
  destruct (String.eqb_spec w "1"); [subst; simpl in H; lia|].
  destruct (String.eqb_spec w "2"); [subst; simpl in H; lia|].
  destruct (String.eqb_spec w "5"); [subst; simpl in H; lia|].
  destruct (String.eqb_spec w "10"); [subst; simpl in H; lia|].
  reflexivity.
Qed.

Lemma entityPass_nil p t c ws :
  (forall w, In w ws -> p w = false) -> entityPass p t c ws = [].
Proof.
  induction ws as [|w ws IH]; intro H; [reflexivity|].
  unfold entityPass in *; simpl.
  rewrite H by (left; reflexivity). apply IH.
  intros; apply H; right; assumption.
Qed.

Lemma entityPass_values p t c ws : map value (entityPass p t c ws) = filter p ws.
Proof.
  induction ws as [|w ws IH]; [reflexivity|].
  unfold entityPass in *; simpl. destruct (p w); simpl; rewrite IH; reflexivity.
Qed.

Lemma entityPass_types p t c ws :
  map entityType (entityPass p t c ws) = repeat t (List.length (filter p ws)).
Proof.
  induction ws as [|w ws IH]; [reflexivity|].
  unfold entityPass in *; simpl. destruct (p w); simpl; rewrite IH; reflexivity.
Qed.

Lemma entityPass_length p t c ws :
  List.length (entityPass p t c ws) = List.length (filter p ws).
Proof. rewrite <- (length_map value), entityPass_values. reflexivity. Qed.

Lemma filter_entityPass ty p t c ws :
  filter (isTypeOf ty) (entityPass p t c ws) =
  if String.eqb t ty then entityPass p t c ws else [].
Proof.
  induction ws as [|w ws IH]; [destruct (String.eqb t ty); reflexivity|].
  change (entityPass p t c (w :: ws)) with
    (app (if p w then [{| entityType := t; value := w; e_confidence := c |}] else [])
         (entityPass p t c ws)).
  rewrite filter_app, IH.
  destruct (p w); unfold isTypeOf; simpl; destruct (String.eqb t ty); reflexivity.
Qed.

Lemma filter_length_le' {A} (f : A -> bool) l :
  (List.length (filter f l) <= List.length l)%nat.
Proof. induction l as [|a l IH]; simpl; [lia|]. destruct (f a); simpl; lia. Qed.

Lemma ghlEntityCount_filter es :
  ghlEntityCount es = List.length (filter (isTypeOf "ghl_object") es).
Proof.
  unfold ghlEntityCount.
  assert (G : forall acc, fold_left (fun acc entity =>
      if String.eqb (entityType entity) "ghl_object" then S acc else acc) es acc
    = (acc + List.length (filter (isTypeOf "ghl_object") es))%nat).
  { induction es as [|e es IH]; intro acc; simpl; [lia|].
    unfold isTypeOf at 1. destruct (String.eqb (entityType e) "ghl_object");
      simpl; rewrite IH; lia. }
  rewrite G. reflexivity.
Qed.

Lemma ghlEntityCount_le words instruction :
  (ghlEntityCount (extractEntities words instruction) <= List.length words)%nat.
Proof.
  rewrite ghlEntityCount_filter. unfold extractEntities, ghlPass, timePass, numberPass.
  rewrite !filter_app, !filter_entityPass. simpl.
  rewrite app_nil_r, entityPass_length. apply filter_length_le'.
Qed.

Lemma Q_of_nat_nonneg n : 0 <= Q_of_nat n.
Proof. unfold Q_of_nat, Qle; simpl; lia. Qed.

Lemma Q_of_nat_le m n : (m <= n)%nat -> Q_of_nat m <= Q_of_nat n.
Proof. intro H. unfold Q_of_nat, Qle; simpl; lia. Qed.

(** The cap [if (x > 1.0) 1.0 else x]. *)
Lemma cap_bounds x : 0 <= x -> 0 <= (if negb (Qle_bool x 1) then 1 else x) <= 1.
Proof.
  intro H. destruct (Qle_bool x 1) eqn:E; simpl.
  - apply Qle_bool_iff in E. split; assumption.
  - split; lra.
Qed.

Lemma Qle_bool_false x y : Qle_bool x y = false -> y < x.
Proof.
  intro E. apply Qnot_le_lt. intro H. apply Qle_bool_iff in H. congruence.
Qed.

Lemma cap_le x b : x <= b -> (if negb (Qle_bool x 1) then 1 else x) <= b.
Proof.
  intro H. destruct (Qle_bool x 1) eqn:E; simpl; [assumption|].
  apply Qle_bool_false in E. lra.
Qed.

Lemma calculateConfidence_range i es ws :
  0 <= calculateConfidence i es ws <= 1.
Proof.
  unfold calculateConfidence. cbv zeta.
  set (B := match i with Unknown => 1#10 | _ => 6#10 end).
  set (n := Q_of_nat (List.length es)).
  set (w := Q_of_nat (List.length ws)).
  set (g := Q_of_nat (ghlEntityCount es)).
  assert (HB : 1#10 <= B) by (unfold B; destruct i; lra).
  assert (Hn : 0 <= n) by apply Q_of_nat_nonneg.
  assert (Hg : 0 <= g) by apply Q_of_nat_nonneg.
  destruct (Qle_bool w 0) eqn:Ew; cbn [negb].
  - apply cap_bounds. lra.
  - apply Qle_bool_false in Ew.
    assert (Hd : 0 <= g / w) by (apply Qle_shift_div_l; lra).
    set (d := g / w) in *. apply cap_bounds. lra.
Qed.

Lemma calculateConfidence_unknown es ws :
  (ghlEntityCount es <= List.length ws)%nat ->
  calculateConfidence Unknown es ws <= (3#10) + Q_of_nat (List.length es) * (1#10).
Proof.
  intro Hc. unfold calculateConfidence. cbv zeta.
  set (n := Q_of_nat (List.length es)).
  set (w := Q_of_nat (List.length ws)).
  set (g := Q_of_nat (ghlEntityCount es)).
  assert (Hn : 0 <= n) by apply Q_of_nat_nonneg.
  assert (Hgw : g <= w) by (apply Q_of_nat_le; exact Hc).
  destruct (Qle_bool w 0) eqn:Ew; cbn [negb].
  - apply cap_le; lra.
  - apply Qle_bool_false in Ew.
    assert (Hd : g / w <= 1) by (apply Qle_shift_div_r; lra).
    set (d := g / w) in *. apply cap_le; lra.
Qed.

Lemma intent_interpretCommand instruction context :
  intent (interpretCommand instruction context) =
  detectIntent (extractKeywords instruction) instruction.
Proof. reflexivity. Qed.

Lemma entities_interpretCommand instruction context :
  entities (interpretCommand instruction context) =
  extractEntities (extractKeywords instruction) instruction.
Proof. reflexivity. Qed.

Lemma confidence_interpretCommand instruction context :
  let words := extractKeywords instruction in
  confidence (interpretCommand instruction context) =
  calculateConfidence (detectIntent words instruction)
    (extractEntities words instruction) words.
Proof. reflexivity. Qed.

Lemma requiresApproval_interpretCommand instruction context :
  requiresApproval (interpretCommand instruction context) =
  shouldRequireApproval (intent (interpretCommand instruction context)) context.
Proof. reflexivity. Qed.

Lemma prefix_refl s : prefix s s = true.
Proof.
  induction s as [|a s IH]; simpl; [reflexivity|].
  destruct (ascii_dec a a); [exact IH|congruence].
Qed.

Lemma contains_suffix p s : Text.contains (p ++ s) s = true.
Proof.
  induction p as [|a p IH]; simpl.
  - destruct s as [|a s]; simpl; [reflexivity|].
    destruct (ascii_dec a a); [|congruence]. rewrite prefix_refl. reflexivity.
  - rewrite IH. apply orb_true_r.
Qed.

End Facts.

(* ------------------------------------------------------------------ *)
(** ** Interpretation: intent, approval, confidence, entities *)

Import Facts.

Definition delete_new_contact : string := "delete the new contact".

(** C1, as stated: every instruction whose keywords contain a deletion
    keyword requires approval. False: ["delete the new contact"] also holds
    the Create keyword ["new"], Create is checked first, and a Create of a
    contact does not require approval at priority 0. *)
Lemma C1_delete_new_contact_counterexample :
  ~ (forall instruction context,
       hasAnyKeyword (extractKeywords instruction) deleteKeywords = true ->
       requiresApproval (interpretCommand instruction context) = true).
Proof.
  intro H. specialize (H delete_new_contact (exampleContext 0) eq_refl).
  vm_compute in H. discriminate H.
Qed.

(** C1 (amended): an instruction whose keywords contain a deletion keyword
    and no Create or Update keyword is classified as Delete and requires
    approval, whatever the context's priority. *)
Theorem delete_intent_requires_approval instruction context :
  hasAnyKeyword (extractKeywords instruction) deleteKeywords = true ->
  hasAnyKeyword (extractKeywords instruction) createKeywords = false ->
  hasAnyKeyword (extractKeywords instruction) updateKeywords = false ->
  intent (interpretCommand instruction context) =
    Delete (findGHLEntity (extractKeywords instruction))
           (extractIdentifier (Text.toLowercase instruction)) /\
  requiresApproval (interpretCommand instruction context) = true.
Proof.
  intros Hd Hc Hu.
  rewrite requiresApproval_interpretCommand, intent_interpretCommand.
  unfold detectIntent. cbv zeta. rewrite Hc, Hu, Hd. split; reflexivity.
Qed.

Lemma delete_intent_requires_approval_witness :
  hasAnyKeyword (extractKeywords "delete the opportunity") deleteKeywords = true /\
  hasAnyKeyword (extractKeywords "delete the opportunity") createKeywords = false /\
  hasAnyKeyword (extractKeywords "delete the opportunity") updateKeywords = false /\
  intent (interpretCommand "delete the opportunity" (exampleContext 0)) =
    Delete (findGHLEntity (extractKeywords "delete the opportunity"))
           (extractIdentifier (Text.toLowercase "delete the opportunity")) /\
  requiresApproval (interpretCommand "delete the opportunity" (exampleContext 0)) = true.
Proof.
  split; [reflexivity|]. split; [reflexivity|]. split; [reflexivity|].
  apply (delete_intent_requires_approval "delete the opportunity" (exampleContext 0));
    reflexivity.
Defined.

(** C2, as stated: with no keyword family, the confidence is at most
    0.1 + 0.1 * entityCount. False for ["contact"]: one ghl_object entity
    over one keyword adds the density term 0.2, giving 0.4 > 0.2. *)
Lemma C2_contact_counterexample :
  ~ (forall instruction context,
       matchesNoFamily (extractKeywords instruction) = true ->
       intent (interpretCommand instruction context) = Unknown /\
       confidence (interpretCommand instruction context) <=
         (1#10) + Q_of_nat (List.length (entities (interpretCommand instruction context)))
                  * (1#10)).
Proof.
  intro H. destruct (H "contact" (exampleContext 0) eq_refl) as [_ H2].
  vm_compute in H2. exact (H2 eq_refl).
Qed.

(** C2 (amended): with no keyword family the intent is Unknown and the
    confidence is at most 0.3 + 0.1 * entityCount (0.1 base, 0.1 per
    entity, at most 0.2 from the ghl_object density). *)
Theorem no_family_unknown_confidence_bound instruction context :
  matchesNoFamily (extractKeywords instruction) = true ->
  intent (interpretCommand instruction context) = Unknown /\
  confidence (interpretCommand instruction context) <=
    (3#10) + Q_of_nat (List.length (entities (interpretCommand instruction context)))
             * (1#10).
Proof.
  intro H. unfold matchesNoFamily in H. cbn [existsb] in H.
  set (W := extractKeywords instruction) in *.
  destruct (hasAnyKeyword W createKeywords) eqn:E1; [simpl in H; discriminate H|].
  destruct (hasAnyKeyword W updateKeywords) eqn:E2; [simpl in H; discriminate H|].
  destruct (hasAnyKeyword W deleteKeywords) eqn:E3; [simpl in H; discriminate H|].
  destruct (hasAnyKeyword W queryKeywords) eqn:E4; [simpl in H; discriminate H|].
  destruct (hasAnyKeyword W automationKeywords) eqn:E5; [simpl in H; discriminate H|].
  assert (Hi : detectIntent W instruction = Unknown).
  { unfold detectIntent. cbv zeta. rewrite E1, E2, E3, E4, E5. reflexivity. }
  rewrite intent_interpretCommand, entities_interpretCommand, confidence_interpretCommand.
  fold W. rewrite Hi. split; [reflexivity|].
  apply calculateConfidence_unknown, ghlEntityCount_le.
Qed.

Lemma no_family_unknown_confidence_bound_witness :
  matchesNoFamily (extractKeywords "contact") = true /\
  intent (interpretCommand "contact" (exampleContext 0)) = Unknown /\
  confidence (interpretCommand "contact" (exampleContext 0)) <=
    (3#10) + Q_of_nat (List.length (entities (interpretCommand "contact" (exampleContext 0))))
             * (1#10).
Proof.
  split; [reflexivity|].
  apply (no_family_unknown_confidence_bound "contact" (exampleContext 0)).
  reflexivity.
Defined.

Definition form_automation : string := "schedule an automation when a form is submitted".

(** C3, as stated: the scenario gives trigger type ["form"]. False: the
    keywords are [schedule; automation; when; form; submitted] and
    ["schedule"], itself a trigger type, comes before ["form"]. *)
Lemma C3_form_automation_counterexample :
  ~ (forall context,
       intent (interpretCommand form_automation context) =
         Automation "form" ["conditional"] /\
       requiresApproval (interpretCommand form_automation context) = true).
Proof.
  intro H. destruct (H (exampleContext 0)) as [H1 _].
  vm_compute in H1. discriminate H1.
Qed.

(** C3 (amended): for any context, the scenario instruction is an Automation
    with trigger type ["schedule"] and conditions [["conditional"]], and it
    requires approval. *)
Theorem form_automation_scenario context :
  intent (interpretCommand form_automation context) =
    Automation "schedule" ["conditional"] /\
  requiresApproval (interpretCommand form_automation context) = true.
Proof. split; reflexivity. Qed.

Definition two_conditions : string :=
  "schedule a follow-up email when the lead replies or if the form is sent after lunch and before dinner".

(** C4, as stated: an Automation's conditions hold ["conditional"] and
    ["temporal"] at most once each, so at most two elements. False: each of
    the four substring checks appends its tag. *)
Lemma C4_two_conditions_counterexample :
  ~ (forall instruction context t cs,
       intent (interpretCommand instruction context) = Automation t cs ->
       (count_occ string_dec cs "conditional" <= 1)%nat /\
       (count_occ string_dec cs "temporal" <= 1)%nat /\
       (List.length cs <= 2)%nat).
Proof.
  intro H.
  destruct (H two_conditions (exampleContext 0) "schedule"
              ["conditional"; "conditional"; "temporal"; "temporal"] eq_refl)
    as [H1 _].
  vm_compute in H1. lia.
Qed.

Definition b2n (b : bool) : nat := if b then 1%nat else 0%nat.

(** C4 (amended): an Automation's conditions are ["conditional"] once for
    each of the substrings ["when"] and ["if"] of the lower-cased
    instruction, followed by ["temporal"] once for each of ["after"] and
    ["before"]; so each tag occurs at most twice and there are at most four
    conditions. *)
Theorem automation_conditions_shape instruction context t cs :
  intent (interpretCommand instruction context) = Automation t cs ->
  let lower := Text.toLowercase instruction in
  cs = (repeat "conditional" (b2n (Text.contains lower "when") + b2n (Text.contains lower "if"))
        ++ repeat "temporal" (b2n (Text.contains lower "after") + b2n (Text.contains lower "before")))%list /\
  (List.length cs <= 4)%nat.
Proof.
  rewrite intent_interpretCommand. unfold detectIntent. cbv zeta.
  set (W := extractKeywords instruction).
  destruct (hasAnyKeyword W createKeywords); [discriminate|].
  destruct (hasAnyKeyword W updateKeywords); [discriminate|].
  destruct (hasAnyKeyword W deleteKeywords); [discriminate|].
  destruct (hasAnyKeyword W queryKeywords); [discriminate|].
  destruct (hasAnyKeyword W automationKeywords); [|discriminate].
  intro H. injection H as _ <-. unfold extractConditions.
  destruct (Text.contains (Text.toLowercase instruction) "when"),
           (Text.contains (Text.toLowercase instruction) "if"),
           (Text.contains (Text.toLowercase instruction) "after"),
           (Text.contains (Text.toLowercase instruction) "before");
    simpl; split; (reflexivity || lia).
Qed.

Lemma automation_conditions_shape_witness :
  intent (interpretCommand two_conditions (exampleContext 0)) =
    Automation "schedule" ["conditional"; "conditional"; "temporal"; "temporal"] /\
  let lower := Text.toLowercase two_conditions in
  ["conditional"; "conditional"; "temporal"; "temporal"] =
    (repeat "conditional" (b2n (Text.contains lower "when") + b2n (Text.contains lower "if"))
     ++ repeat "temporal" (b2n (Text.contains lower "after") + b2n (Text.contains lower "before")))%list /\
  (List.length ["conditional"; "conditional"; "temporal"; "temporal"] <= 4)%nat.
Proof.
  split; [vm_compute; reflexivity|].
  apply (automation_conditions_shape two_conditions (exampleContext 0) "schedule").
  vm_compute. reflexivity.
Defined.

Definition today_calendar : string := "show today calendar".

(** C5, as stated: entities follow the keyword order across all entity
    types. False: the keywords of ["show today calendar"] are
    [show; today; calendar] but the entities are [calendar; today], because
    all ghl_object entities are collected before any time_reference. *)
Lemma C5_today_calendar_counterexample :
  extractKeywords today_calendar = ["show"; "today"; "calendar"] /\
  map value (entities (interpretCommand today_calendar (exampleContext 0))) =
    ["calendar"; "today"].
Proof. split; vm_compute; reflexivity. Qed.

(** C5 (amended): the entities are grouped by type, ghl_object first, then
    time_reference, then number; inside each group they follow the keyword
    order and every matching keyword, duplicates included, gives one
    entity. *)
Theorem entities_grouped_in_keyword_order instruction context :
  let ws := extractKeywords instruction in
  let es := entities (interpretCommand instruction context) in
  let ghl := filter (fun w => Text.mem w ghlEntities) ws in
  let time := filter (fun w => Text.mem w timeWords) ws in
  let num := filter isNumberWord ws in
  map value es = (ghl ++ time ++ num)%list /\
  map entityType es =
    (repeat "ghl_object" (List.length ghl) ++
     repeat "time_reference" (List.length time) ++
     repeat "number" (List.length num))%list.
Proof.
  cbv zeta. rewrite entities_interpretCommand.
  unfold extractEntities, ghlPass, timePass, numberPass.
  rewrite !map_app, !entityPass_values, !entityPass_types. split; reflexivity.
Qed.

(** C6: for every instruction (the empty one included) and context, the
    confidence lies in [0, 1]. *)
Theorem confidence_in_unit_interval instruction context :
  0 <= confidence (interpretCommand instruction context) <= 1.
Proof. apply calculateConfidence_range. Qed.

(** C7: [shouldRequireApproval] is the specification's decision table, and
    the approval of an interpretation is that table applied to its intent
    and the context. *)
Theorem approval_decision_table :
  (forall i context, shouldRequireApproval i context = approvalTable i context) /\
  (forall instruction context,
     requiresApproval (interpretCommand instruction context) =
     approvalTable (intent (interpretCommand instruction context)) context).
Proof.
  assert (T : forall i context, shouldRequireApproval i context = approvalTable i context).
  { intros [o| o id| o id| o f| t c|] context; try reflexivity.
    simpl. destruct (String.eqb o "workflow"), (String.eqb o "campaign"),
      (String.eqb o "automation"); reflexivity. }
  split; [exact T|]. intros. rewrite requiresApproval_interpretCommand. apply T.
Qed.

(** C8: on [Failed reason] the spoken text is the apology followed by the
    reason (so it contains the reason) and the call ends; on any other
    status the call does not end. *)
Theorem voice_response_by_status r :
  match status r with
  | Failed reason =>
      spokenText (formatVoiceResponse r) =
        "I'm sorry, but I encountered an issue: " ++ reason /\
      Text.contains (spokenText (formatVoiceResponse r)) reason = true /\
      shouldEndCall (formatVoiceResponse r) = true
  | _ => shouldEndCall (formatVoiceResponse r) = false
  end.
Proof.
  unfold formatVoiceResponse, generateSpokenText, shouldEndVoiceCall; cbn [spokenText shouldEndCall].
  destruct (status r); try reflexivity.
  split; [reflexivity|]. split; [apply contains_suffix|reflexivity].
Qed.

(** C9: a Completed result gives continue/next with the execution status,
    command id and duration as text; a Failed one stop/error with no
    variables; any other wait/pending with no variables. *)
Theorem workflow_decision_by_status r :
  match status r with
  | Completed =>
      generateWorkflowDecision r =
        {| decision := "continue"; nextStep := "next";
           variables := [("execution_status", "completed");
                         ("command_id", commandId r);
                         ("duration", natToText (duration r))] |}
  | Failed _ =>
      generateWorkflowDecision r =
        {| decision := "stop"; nextStep := "error"; variables := [] |}
  | _ =>
      generateWorkflowDecision r =
        {| decision := "wait"; nextStep := "pending"; variables := [] |}
  end.
Proof.
  unfold generateWorkflowDecision, generateWorkflowVariables.
  destruct (status r); reflexivity.
Qed.

(** C10: no instruction yields an entity of type ["number"]: every keyword
    is longer than two characters, so none equals "1", "2", "5" or "10". *)
Theorem no_number_entities instruction context :
  filter (isTypeOf "number") (entities (interpretCommand instruction context)) = [].
Proof.
  rewrite entities_interpretCommand. unfold extractEntities, numberPass.
  rewrite (entityPass_nil isNumberWord).
  - unfold ghlPass, timePass. rewrite !filter_app, !filter_entityPass. reflexivity.
  - intros w Hw. apply isNumberWord_long, (extractKeywords_long instruction), Hw.
Qed.

(* ------------------------------------------------------------------ *)
(** ** Further properties of the code *)

Module TextFacts.

Lemma sall_app f a b : sall f (a ++ b) = sall f a && sall f b.
Proof.
  induction a as [|x a IH]; simpl; [reflexivity|]. rewrite IH, andb_assoc. reflexivity.
Qed.

Lemma string_app_assoc a b c : (a ++ b) ++ c = a ++ (b ++ c).
Proof. induction a as [|x a IH]; simpl; [reflexivity|]. rewrite IH. reflexivity. Qed.

Lemma string_app_nil a : a ++ "" = a.
Proof. induction a as [|x a IH]; simpl; [reflexivity|]. rewrite IH. reflexivity. Qed.

Lemma lower_char_idem c : Text.lower_char (Text.lower_char c) = Text.lower_char c.
Proof. destruct c as [[] [] [] [] [] [] [] []]; reflexivity. Qed.

Lemma toLowercase_idem s : Text.toLowercase (Text.toLowercase s) = Text.toLowercase s.
Proof. induction s as [|c s IH]; simpl; [reflexivity|]. rewrite IH, lower_char_idem. reflexivity. Qed.

Lemma sall_toLowercase s : sall isLowered (Text.toLowercase s) = true.
Proof.
  induction s as [|c s IH]; simpl; [reflexivity|]. rewrite IH, andb_true_r.
  unfold isLowered. rewrite lower_char_idem. apply Ascii.eqb_refl.
Qed.

Lemma toLowercase_lowered s : sall isLowered s = true -> Text.toLowercase s = s.
Proof.
  induction s as [|c s IH]; simpl; [reflexivity|].
  intro H. apply andb_true_iff in H as [H1 H2]. unfold isLowered in H1.
  apply Ascii.eqb_eq in H1. rewrite H1, IH by exact H2. reflexivity.
Qed.

Lemma sall_list f s : sall f s = forallb f (list_ascii_of_string s).
Proof. induction s as [|c s IH]; simpl; [reflexivity|]. rewrite IH. reflexivity. Qed.

Lemma forallb_rev {A} (f : A -> bool) l : forallb f (rev l) = forallb f l.
Proof.
  induction l as [|a l IH]; simpl; [reflexivity|].
  rewrite forallb_app, IH. simpl. rewrite andb_true_r, andb_comm. reflexivity.
Qed.

Lemma sall_rev f s : sall f (Text.rev_string s) = sall f s.
Proof.
  unfold Text.rev_string. rewrite !sall_list, list_ascii_of_string_of_list_ascii.
  apply forallb_rev.
Qed.

Lemma rev_string_involutive s : Text.rev_string (Text.rev_string s) = s.
Proof.
  unfold Text.rev_string. rewrite list_ascii_of_string_of_list_ascii, rev_involutive.
  apply string_of_list_ascii_of_string.
Qed.

Lemma sall_trimStart f c s : sall f s = true -> sall f (Text.trimStart c s) = true.
Proof.
  induction s as [|a s IH]; simpl; [reflexivity|].
  intro H. destruct (Ascii.eqb a c); [|exact H].
  apply IH. apply andb_true_iff in H as [_ H]. exact H.
Qed.

Lemma sall_trim f c s : sall f s = true -> sall f (Text.trim s c) = true.
Proof.
  intro H. unfold Text.trim. rewrite sall_rev.
  apply sall_trimStart. rewrite sall_rev. apply sall_trimStart, H.
Qed.

Lemma trimStart_notSpace s : sall notSpace s = true -> Text.trimStart " "%char s = s.
Proof.
  destruct s as [|a s]; simpl; [reflexivity|].
  intro H. apply andb_true_iff in H as [H _]. unfold notSpace in H.
  destruct (Ascii.eqb a " "%char); [discriminate|reflexivity].
Qed.

Lemma trim_notSpace s : sall notSpace s = true -> Text.trim s " "%char = s.
Proof.
  intro H. unfold Text.trim. rewrite (trimStart_notSpace s) by exact H.
  rewrite (trimStart_notSpace (Text.rev_string s)) by (rewrite sall_rev; exact H).
  apply rev_string_involutive.
Qed.

Lemma split_aux_sall f c cur s :
  sall f cur = true -> sall f s = true ->
  Forall (fun p => sall f p = true) (Text.split_aux c cur s).
Proof.
  revert cur. induction s as [|a s IH]; intros cur Hc Hs; simpl.
  - constructor; [exact Hc|constructor].
  - simpl in Hs. apply andb_true_iff in Hs as [Ha Hs].
    destruct (Ascii.eqb a c).
    + constructor; [exact Hc|]. apply IH; [reflexivity|exact Hs].
    + apply IH; [|exact Hs]. rewrite sall_app, Hc. simpl. rewrite Ha. reflexivity.
Qed.

Lemma split_aux_notSpace cur s :
  sall notSpace cur = true ->
  Forall (fun p => sall notSpace p = true) (Text.split_aux " "%char cur s).
Proof.
  revert cur. induction s as [|a s IH]; intros cur Hc; simpl.
  - constructor; [exact Hc|constructor].
  - destruct (Ascii.eqb a " "%char) eqn:E.
    + constructor; [exact Hc|]. apply IH. reflexivity.
    + apply IH. rewrite sall_app, Hc. simpl. unfold notSpace. rewrite E. reflexivity.
Qed.

Lemma keepWord_spec w x :
  In x (keepWord w) ->
  x = Text.trim w " "%char /\ (2 < String.length x)%nat /\ isStopWord x = false.
Proof.
  unfold keepWord. set (c := Text.trim w " "%char).
  destruct ((2 <? String.length c)%nat && negb (isStopWord c)) eqn:E;
    simpl; [|tauto].
  intros [<-|[]]. apply andb_true_iff in E as [E1 E2].
  apply Nat.ltb_lt in E1. apply negb_true_iff in E2. auto.
Qed.

Lemma split_aux_app_word c cur w rest :
  sall (fun x => negb (Ascii.eqb x c)) w = true ->
  Text.split_aux c cur (w ++ rest) = Text.split_aux c (cur ++ w) rest.
Proof.
  revert cur. induction w as [|a w IH]; intros cur H; simpl.
  - rewrite string_app_nil. reflexivity.
  - simpl in H. apply andb_true_iff in H as [Ha H]. apply negb_true_iff in Ha.
    rewrite Ha, IH by exact H. rewrite string_app_assoc. reflexivity.
Qed.

Lemma split_aux_sep c cur rest :
  Text.split_aux c cur (String c rest) = cur :: Text.split_aux c "" rest.
Proof. simpl. rewrite Ascii.eqb_refl. reflexivity. Qed.

Lemma split_concat ws :
  ws <> [] -> Forall (fun w => sall notSpace w = true) ws ->
  Text.split (String.concat " " ws) " "%char = ws.
Proof.
  unfold Text.split. induction ws as [|w ws IH]; intros Hne Hf; [congruence|].
  inversion Hf as [|? ? Hw Hws]; subst.
  destruct ws as [|w' ws'].
  - simpl. rewrite <- (string_app_nil w) at 1.
    rewrite split_aux_app_word by exact Hw. reflexivity.
  - change (String.concat " " (w :: w' :: ws')) with (w ++ " " ++ String.concat " " (w' :: ws')).
    rewrite split_aux_app_word by exact Hw.
    change (" " ++ String.concat " " (w' :: ws'))
      with (String " "%char (String.concat " " (w' :: ws'))).
    rewrite split_aux_sep, IH by (discriminate || exact Hws). reflexivity.
Qed.

Lemma sall_concat f sep ws :
  sall f sep = true -> Forall (fun w => sall f w = true) ws ->
  sall f (String.concat sep ws) = true.
Proof.
  intros Hs Hf. induction Hf as [|w ws Hw Hws IH]; [reflexivity|].
  destruct ws as [|w' ws']; [exact Hw|].
  change (String.concat sep (w :: w' :: ws')) with (w ++ sep ++ String.concat sep (w' :: ws')).
  rewrite !sall_app, Hw, Hs, IH. reflexivity.
Qed.

End TextFacts.

Import TextFacts.

Lemma goodKeyword_iff w :
  goodKeyword w = true <->
  (2 < String.length w)%nat /\ isStopWord w = false /\
  sall isLowered w = true /\ sall notSpace w = true.
Proof.
  unfold goodKeyword. rewrite !andb_true_iff, Nat.ltb_lt, negb_true_iff. tauto.
Qed.

Lemma keepWord_good w : goodKeyword w = true -> keepWord w = [w].
Proof.
  intro H. pose proof H as H'. apply goodKeyword_iff in H' as (_ & _ & _ & Hs).
  unfold keepWord. rewrite trim_notSpace by exact Hs.
  unfold goodKeyword in H. apply andb_true_iff in H as [H _].
  apply andb_true_iff in H as [H _]. rewrite H. reflexivity.
Qed.

(** X1: every keyword produced by [extractKeywords] is longer than two
    characters, is not a stop word, is already lower-case and holds no
    space. *)
Theorem extractKeywords_well_formed instruction :
  Forall (fun w => goodKeyword w = true) (extractKeywords instruction).
Proof.
  apply Forall_forall. intros x Hx. unfold extractKeywords in Hx.
  apply in_flat_map in Hx as [p [Hp Hx]].
  apply keepWord_spec in Hx as (-> & Hl & Hs).
  pose proof (split_aux_sall isLowered " "%char "" _ eq_refl
                (sall_toLowercase instruction)) as F1.
  pose proof (split_aux_notSpace "" (Text.toLowercase instruction) eq_refl) as F2.
  rewrite Forall_forall in F1, F2.
  apply goodKeyword_iff. repeat split; try assumption.
  - apply sall_trim, F1, Hp.
  - apply sall_trim, F2, Hp.
Qed.

Lemma extractKeywords_concat ws :
  Forall (fun w => goodKeyword w = true) ws ->
  extractKeywords (String.concat " " ws) = ws.
Proof.
  intro Hf. destruct ws as [|w ws]; [reflexivity|].
  assert (Hl : Forall (fun w => sall isLowered w = true) (w :: ws)).
  { eapply Forall_impl; [|exact Hf]. intros a Ha. apply goodKeyword_iff in Ha. tauto. }
  assert (Hs : Forall (fun w => sall notSpace w = true) (w :: ws)).
  { eapply Forall_impl; [|exact Hf]. intros a Ha. apply goodKeyword_iff in Ha. tauto. }
  unfold extractKeywords.
  rewrite toLowercase_lowered by (apply sall_concat; [reflexivity|exact Hl]).
  rewrite split_concat by (discriminate || exact Hs).
  clear Hl Hs. induction Hf as [|a l Ha Hl IH]; [reflexivity|].
  simpl. rewrite keepWord_good by exact Ha. simpl. f_equal. exact IH.
Qed.

(** X2: tokenizing is idempotent: joining the keywords with single spaces
    and tokenizing again gives back the same keywords. *)
Theorem extractKeywords_join_roundtrip instruction :
  extractKeywords (GHLIntegration.join " " (extractKeywords instruction)) =
  extractKeywords instruction.
Proof. apply extractKeywords_concat, extractKeywords_well_formed. Qed.

(** X3: the interpretation of an instruction does not depend on letter
    case: lower-casing the instruction first changes nothing. *)
Theorem interpretCommand_case_insensitive instruction context :
  interpretCommand (Text.toLowercase instruction) context =
  interpretCommand instruction context.
Proof.
  unfold interpretCommand, detectIntent, extractKeywords.
  rewrite !toLowercase_idem. reflexivity.
Qed.

Lemma cap_ge x b : b <= 1 -> b <= x -> b <= (if negb (Qle_bool x 1) then 1 else x).
Proof. intros H1 H2. destruct (Qle_bool x 1); simpl; assumption. Qed.

Lemma calculateConfidence_known i es ws :
  i <> Unknown ->
  (6#10) + Q_of_nat (List.length es) * (1#10) <= 1 ->
  (6#10) + Q_of_nat (List.length es) * (1#10) <= calculateConfidence i es ws.
Proof.
  intros Hi Hle. unfold calculateConfidence. cbv zeta.
  replace (match i with Unknown => 1#10 | _ => 6#10 end) with (6#10)
    by (destruct i; congruence).
  set (n := Q_of_nat (List.length es)) in *.
  set (w := Q_of_nat (List.length ws)).
  set (g := Q_of_nat (ghlEntityCount es)).
  assert (Hg : 0 <= g) by apply Q_of_nat_nonneg.
  apply cap_ge; [exact Hle|].
  destruct (Qle_bool w 0) eqn:Ew; cbn [negb]; [lra|].
  apply Qle_bool_false in Ew.
  assert (Hd : 0 <= g / w) by (apply Qle_shift_div_l; lra).
  set (d := g / w) in *. lra.
Qed.

(** X4: an instruction with a recognised intent scores at least 0.6. *)
Theorem recognised_intent_confidence_floor instruction context :
  intent (interpretCommand instruction context) <> Unknown ->
  (6#10) <= confidence (interpretCommand instruction context).
Proof.
  intro Hi. rewrite confidence_interpretCommand. rewrite intent_interpretCommand in Hi.
  set (ws := extractKeywords instruction) in *.
  set (es := extractEntities ws instruction).
  destruct (Qle_bool ((6#10) + Q_of_nat (List.length es) * (1#10)) 1) eqn:E.
  - apply Qle_bool_iff in E.
    pose proof (Q_of_nat_nonneg (List.length es)).
    eapply Qle_trans; [|apply calculateConfidence_known; assumption]. lra.
  - apply Qle_bool_false in E. unfold calculateConfidence. cbv zeta.
    replace (match detectIntent ws instruction with Unknown => 1#10 | _ => 6#10 end)
      with (6#10) by (destruct (detectIntent ws instruction); congruence).
    set (w := Q_of_nat (List.length ws)).
    set (g := Q_of_nat (ghlEntityCount es)).
    assert (Hg : 0 <= g) by apply Q_of_nat_nonneg.
    apply cap_ge; [lra|].
    destruct (Qle_bool w 0) eqn:Ew; cbn [negb]; [lra|].
    apply Qle_bool_false in Ew.
    assert (Hd : 0 <= g / w) by (apply Qle_shift_div_l; lra).
    set (d := g / w) in *. lra.
Qed.

Lemma recognised_intent_confidence_floor_witness :
  intent (interpretCommand "create a new contact named Jane" (exampleContext 1)) <> Unknown /\
  (6#10) <= confidence (interpretCommand "create a new contact named Jane" (exampleContext 1)).
Proof.
  split; [vm_compute; discriminate|].
  apply recognised_intent_confidence_floor. vm_compute. discriminate.
Defined.

(** X5: an instruction with a recognised intent and at least four
    entities scores exactly the cap 1.0. *)
Theorem recognised_intent_four_entities_full_confidence instruction context :
  intent (interpretCommand instruction context) <> Unknown ->
  (4 <= List.length (entities (interpretCommand instruction context)))%nat ->
  confidence (interpretCommand instruction context) == 1.
Proof.
  intros Hi Hn. rewrite confidence_interpretCommand.
  rewrite intent_interpretCommand in Hi. rewrite entities_interpretCommand in Hn.
  set (ws := extractKeywords instruction) in *.
  set (es := extractEntities ws instruction) in *.
  pose proof (calculateConfidence_range (detectIntent ws instruction) es ws) as [_ H1].
  apply Qle_antisym; [exact H1|].
  unfold calculateConfidence. cbv zeta.
  replace (match detectIntent ws instruction with Unknown => 1#10 | _ => 6#10 end)
    with (6#10) by (destruct (detectIntent ws instruction); congruence).
  assert (Hq : Q_of_nat 4 <= Q_of_nat (List.length es)) by (apply Q_of_nat_le; exact Hn).
  change (Q_of_nat 4) with (4#1) in Hq.
  set (n := Q_of_nat (List.length es)) in *.
  set (w := Q_of_nat (List.length ws)).
  set (g := Q_of_nat (ghlEntityCount es)).
  assert (Hg : 0 <= g) by apply Q_of_nat_nonneg.
  apply cap_ge; [lra|].
  destruct (Qle_bool w 0) eqn:Ew; cbn [negb]; [lra|].
  apply Qle_bool_false in Ew.
  assert (Hd : 0 <= g / w) by (apply Qle_shift_div_l; lra).
  set (d := g / w) in *. lra.
Qed.

Lemma recognised_intent_four_entities_full_confidence_witness :
  intent (interpretCommand four_entities (exampleContext 1)) <> Unknown /\
  (4 <= List.length (entities (interpretCommand four_entities (exampleContext 1))))%nat /\
  confidence (interpretCommand four_entities (exampleContext 1)) == 1.
Proof.
  split; [vm_compute; discriminate|]. split; [vm_compute; lia|].
  apply recognised_intent_four_entities_full_confidence;
    [vm_compute; discriminate|vm_compute; lia].
Defined.

Lemma entityPass_Forall p t c ws :
  Forall (fun e => entityType e = t /\ e_confidence e = c /\
                   In (value e) ws /\ p (value e) = true) (entityPass p t c ws).
Proof.
  apply Forall_forall. intros e He. unfold entityPass in He.
  apply in_flat_map in He as [w [Hw He]].
  destruct (p w) eqn:Ep; [|destruct He].
  destruct He as [<-|[]]. simpl. auto.
Qed.

(** X6: every extracted entity is either a ghl_object of confidence 0.9
    whose value is a keyword from the CRM-object vocabulary, or a
    time_reference of confidence 0.8 whose value is a keyword from the
    time vocabulary. *)
Theorem entities_typed_from_keywords instruction context :
  Forall (fun e =>
    In (value e) (extractKeywords instruction) /\
    ((entityType e = "ghl_object" /\ e_confidence e = 9#10 /\
      Text.mem (value e) ghlEntities = true) \/
     (entityType e = "time_reference" /\ e_confidence e = 8#10 /\
      Text.mem (value e) timeWords = true)))
    (entities (interpretCommand instruction context)).
Proof.
  rewrite entities_interpretCommand. unfold extractEntities, numberPass.
  rewrite (entityPass_nil isNumberWord)
    by (intros w Hw; apply isNumberWord_long, (extractKeywords_long instruction), Hw).
  rewrite app_nil_r. apply Forall_app. split.
  - eapply Forall_impl; [|apply entityPass_Forall].
    intros e (? & ? & ? & ?). split; [assumption|]. left. auto.
  - eapply Forall_impl; [|apply entityPass_Forall].
    intros e (? & ? & ? & ?). split; [assumption|]. right. auto.
Qed.

Lemma find_first_or_default (p : string -> bool) ws dflt :
  let r := match find p ws with Some x => x | None => dflt end in
  (r = dflt /\ forall w, In w ws -> p w = false) \/ (In r ws /\ p r = true).
Proof.
  cbv zeta. destruct (find p ws) eqn:E.
  - right. apply find_some in E. exact E.
  - left. split; [reflexivity|]. intros w Hw. exact (find_none p ws E w Hw).
Qed.

(** X7: the object type of a Create, Update, Delete or Query intent is
    either ["unknown"], when no keyword is a CRM object, or a keyword of
    the instruction that is a CRM object; the trigger type of an
    Automation is either ["manual"], when no keyword is a trigger type, or
    a keyword that is one. *)
Theorem intent_payload_from_keywords instruction context :
  let ws := extractKeywords instruction in
  match intent (interpretCommand instruction context) with
  | Create o | Update o _ | Delete o _ | Query o _ =>
      (o = "unknown" /\ forall w, In w ws -> Text.mem w ghlEntities = false) \/
      (In o ws /\ Text.mem o ghlEntities = true)
  | Automation t _ =>
      (t = "manual" /\ forall w, In w ws -> Text.mem w triggerTypes = false) \/
      (In t ws /\ Text.mem t triggerTypes = true)
  | Unknown => True
  end.
Proof.
  cbv zeta. rewrite intent_interpretCommand. unfold detectIntent. cbv zeta.
  set (ws := extractKeywords instruction).
  pose proof (find_first_or_default (fun w => Text.mem w ghlEntities) ws "unknown") as G.
  pose proof (find_first_or_default (fun w => Text.mem w triggerTypes) ws "manual") as T.
  destruct (hasAnyKeyword ws createKeywords); [exact G|].
  destruct (hasAnyKeyword ws updateKeywords); [exact G|].
  destruct (hasAnyKeyword ws deleteKeywords); [exact G|].
  destruct (hasAnyKeyword ws queryKeywords); [exact G|].
  destruct (hasAnyKeyword ws automationKeywords); [exact T|exact I].
Qed.

(* ------------------------------------------------------------------ *)
(** ** The actor's maps and shared functions *)

Import AgentAdam.

Module ActorFacts.

Lemma get_put_same {V} (m : Map V) k v : get (put m k v) k = Some v.
Proof.
  induction m as [|[k' v'] m IH]; simpl; [rewrite String.eqb_refl; reflexivity|].
  destruct (String.eqb k k') eqn:E; simpl; [rewrite String.eqb_refl; reflexivity|].
  rewrite E. exact IH.
Qed.

Lemma get_put_other {V} (m : Map V) k k' v : k' <> k -> get (put m k v) k' = get m k'.
Proof.
  intro Hne. induction m as [|[k0 v0] m IH]; simpl.
  - apply String.eqb_neq in Hne. rewrite Hne. reflexivity.
  - destruct (String.eqb k k0) eqn:E; simpl.
    + apply String.eqb_eq in E. subst k0.
      apply String.eqb_neq in Hne. rewrite Hne. reflexivity.
    + destruct (String.eqb k' k0); [reflexivity|exact IH].
Qed.

Lemma length_put {V} (m : Map V) k v :
  List.length (put m k v) =
  (List.length m + match get m k with Some _ => 0 | None => 1 end)%nat.
Proof.
  induction m as [|[k' v'] m IH]; simpl; [reflexivity|].
  destruct (String.eqb k k'); simpl; [lia|]. rewrite IH. reflexivity.
Qed.


Lemma notin_get_none {V} (m : Map V) k : ~ In k (map fst m) -> get m k = None.
Proof.
  induction m as [|[k' v'] m IH]; simpl; [reflexivity|].
  intro H. destruct (String.eqb_spec k k'); [subst; tauto|]. apply IH. tauto.
Qed.



Lemma put_absent {V} (m : Map V) k v : ~ In k (map fst m) -> put m k v = (m ++ [(k, v)])%list.
Proof.
  induction m as [|[k' v'] m IH]; simpl; [reflexivity|].
  intro H. destruct (String.eqb_spec k k'); [subst; tauto|].
  rewrite IH by tauto. reflexivity.
Qed.

Lemma fromIter_nodup {V} (m : Map V) : NoDup (map fst m) -> fromIter m = m.
Proof.
  unfold fromIter. intro H.
  assert (G : forall acc, NoDup (map fst (acc ++ m)) ->
            fold_left (fun m0 kv => put m0 (fst kv) (snd kv)) m acc = (acc ++ m)%list).
  { clear H. induction m as [|[k v] m IH]; intros acc Hn; simpl; [rewrite app_nil_r; reflexivity|].
    assert (Hk : ~ In k (map fst acc)).
    { rewrite map_app in Hn. simpl in Hn. apply NoDup_remove_2 in Hn.
      rewrite in_app_iff in Hn. tauto. }
    rewrite (put_absent acc k v Hk). simpl.
    rewrite (IH (acc ++ [(k, v)])%list).
    - rewrite <- app_assoc. reflexivity.
    - rewrite <- app_assoc. exact Hn. }
  apply (G []). exact H.
Qed.

Lemma historyLoop_firstn limit count entries :
  (count <= limit)%nat ->
  historyLoop limit count entries = firstn (limit - count) (map snd entries).
Proof.
  revert count. induction entries as [|[k c] rest IH]; intros count Hc; simpl.
  - destruct (limit - count)%nat; reflexivity.
  - destruct (count <? limit)%nat eqn:E.
    + apply Nat.ltb_lt in E. rewrite IH by lia.
      replace (limit - count)%nat with (S (limit - S count)) by lia. reflexivity.
    + apply Nat.ltb_ge in E. replace (limit - count)%nat with 0%nat by lia.
      rewrite IH by lia. replace (limit - count)%nat with 0%nat by lia. reflexivity.
Qed.

End ActorFacts.

Import ActorFacts.

(** X8: [processCommand] answers with a Completed result for the command's
    id (no actions, duration 100), after which the command and that
    result are what the maps hold under the id. *)
Theorem processCommand_stores_command_and_result cmd st :
  let r := {| commandId := id cmd; status := Completed; actions := [];
              insights := ["Command processed successfully"];
              nextSteps := ["Review execution result"]; duration := 100 |} in
  fst (processCommand cmd st) = ok r /\
  getExecutionResult (id cmd) (snd (processCommand cmd st)) = Some r /\
  get (commands (snd (processCommand cmd st))) (id cmd) = Some cmd.
Proof.
  cbv zeta. unfold getExecutionResult, processCommand; cbn [fst snd commands results].
  split; [reflexivity|]. split; apply get_put_same.
Qed.

(** X9: [processCommand] leaves the stored command and result of every
    other id unchanged. *)
Theorem processCommand_frame cmd st k :
  k <> id cmd ->
  getExecutionResult k (snd (processCommand cmd st)) = getExecutionResult k st /\
  get (commands (snd (processCommand cmd st))) k = get (commands st) k.
Proof.
  intro Hk. unfold getExecutionResult, processCommand; cbn [fst snd commands results].
  split; apply get_put_other; exact Hk.
Qed.

Lemma processCommand_frame_witness :
  "other" <> id (sampleCommand "c1" "delete the opportunity") /\
  getExecutionResult "other"
    (snd (processCommand (sampleCommand "c1" "delete the opportunity") initialState)) =
    getExecutionResult "other" initialState /\
  get (commands (snd (processCommand (sampleCommand "c1" "delete the opportunity")
                        initialState))) "other" =
    get (commands initialState) "other".
Proof.
  split; [discriminate|].
  apply processCommand_frame. discriminate.
Defined.

(** X10: [getTotalCommands] grows by one when [processCommand] receives a
    new id and stays the same when the id is already stored. *)
Theorem processCommand_total_commands cmd st :
  getTotalCommands (snd (processCommand cmd st)) =
  (getTotalCommands st +
   match get (commands st) (id cmd) with Some _ => 0 | None => 1 end)%nat.
Proof. unfold getTotalCommands, processCommand; cbn [snd commands]. apply length_put. Qed.

(** X11: the answer of [processCommand] depends only on the command id:
    the instruction, source and context are stored but never read. *)
Theorem processCommand_ignores_instruction cmd1 cmd2 st :
  id cmd1 = id cmd2 -> fst (processCommand cmd1 st) = fst (processCommand cmd2 st).
Proof. intro H. unfold processCommand; cbn [fst]. rewrite H. reflexivity. Qed.

Lemma processCommand_ignores_instruction_witness :
  id (sampleCommand "c1" "delete the opportunity") = id (sampleCommand "c1" "create a workflow") /\
  fst (processCommand (sampleCommand "c1" "delete the opportunity") initialState) =
  fst (processCommand (sampleCommand "c1" "create a workflow") initialState).
Proof. split; [reflexivity|]. apply processCommand_ignores_instruction. reflexivity. Defined.

(** X12: [getCommandHistory limit] returns the first [limit] stored
    commands in iteration order, so [min limit total] of them. *)
Theorem getCommandHistory_prefix limit st :
  getCommandHistory limit st = firstn limit (map snd (commands st)) /\
  List.length (getCommandHistory limit st) = Nat.min limit (getTotalCommands st).
Proof.
  unfold getCommandHistory, getTotalCommands.
  rewrite historyLoop_firstn by lia. rewrite Nat.sub_0_r.
  split; [reflexivity|]. rewrite length_firstn, length_map. reflexivity.
Qed.



(** X14: an upgrade ([preupgrade] then [postupgrade]) of a state whose maps
    have unique keys gives back the same maps and empties the stable
    arrays. *)
Theorem upgrade_roundtrip st :
  NoDup (map fst (commands st)) -> NoDup (map fst (results st)) ->
  NoDup (map fst (prefs st)) ->
  postupgrade (preupgrade st) =
  {| commandHistory := []; executionResults := []; userPreferences := [];
     commands := commands st; results := results st; prefs := prefs st |}.
Proof.
  intros H1 H2 H3. unfold postupgrade, preupgrade; cbn [commandHistory executionResults userPreferences].
  rewrite !fromIter_nodup by assumption. reflexivity.
Qed.

Lemma upgrade_roundtrip_witness :
  NoDup (map fst (commands twoCommandState)) /\ NoDup (map fst (results twoCommandState)) /\
  NoDup (map fst (prefs twoCommandState)) /\
  postupgrade (preupgrade twoCommandState) =
  {| commandHistory := []; executionResults := []; userPreferences := [];
     commands := commands twoCommandState; results := results twoCommandState;
     prefs := prefs twoCommandState |}.
Proof.
  assert (N : NoDup (map fst (commands twoCommandState)) /\
              NoDup (map fst (results twoCommandState)) /\
              NoDup (map fst (prefs twoCommandState))).
  { vm_compute. split; [|split; [|constructor]];
      (constructor; [simpl; intros [H|[]]; discriminate H|repeat constructor; simpl; tauto]). }
  destruct N as (N1 & N2 & N3).
  split; [exact N1|]. split; [exact N2|]. split; [exact N3|].
  apply upgrade_roundtrip; assumption.
Defined.

Lemma approval_below_three i context :
  (priority context < 3)%nat ->
  shouldRequireApproval i context =
  match i with
  | Delete _ _ | Automation _ _ => true
  | Create o => Text.mem o ["workflow"; "campaign"; "automation"]
  | _ => false
  end.
Proof.
  intro H. apply Nat.leb_gt in H.
  destruct i as [o| | | | |]; simpl; try exact H; try reflexivity.
  destruct (String.eqb o "workflow"), (String.eqb o "campaign"),
    (String.eqb o "automation"); reflexivity.
Qed.

(** X15: [handleWebhook] always answers ok and stores the payload as a
    command with priority 1 under ["<webhookId>_<now>"]; interpreted in
    that stored context, the payload needs approval exactly for Delete,
    Automation, and Create of a workflow, campaign or automation. *)
Theorem handleWebhook_stores_priority_one webhookId eventType payload loc now st :
  fst (handleWebhook webhookId eventType payload loc now st) =
    ok "Webhook processed successfully" /\
  exists cmd,
    get (commands (snd (handleWebhook webhookId eventType payload loc now st)))
        (webhookId ++ "_" ++ intToText now) = Some cmd /\
    instruction cmd = payload /\ source cmd = GHLWebhook webhookId eventType /\
    priority (context cmd) = 1%nat /\
    requiresApproval (interpretCommand payload (context cmd)) =
      match intent (interpretCommand payload (context cmd)) with
      | Delete _ _ | Automation _ _ => true
      | Create o => Text.mem o ["workflow"; "campaign"; "automation"]
      | _ => false
      end.
Proof.
  unfold handleWebhook, processCommand; cbn [fst snd commands].
  split; [reflexivity|]. eexists. split; [apply get_put_same|].
  split; [reflexivity|]. split; [reflexivity|]. split; [reflexivity|].
  rewrite requiresApproval_interpretCommand. apply approval_below_three. simpl. lia.
Qed.

(** X16: [processVoiceCommand] and [processChatCommand] always answer ok,
    with a call that does not end and a chat that does not close, and
    store the transcript or message as a command with priority 2. *)
Theorem voice_and_chat_priority_two sessionId callerId transcript
    conversationId contactId msg loc now st :
  (exists v, fst (processVoiceCommand sessionId callerId transcript loc now st) = ok v /\
             shouldEndCall v = false) /\
  (exists cmd, get (commands (snd (processVoiceCommand sessionId callerId transcript loc now st)))
                   (sessionId ++ "_" ++ intToText now) = Some cmd /\
               instruction cmd = transcript /\ priority (context cmd) = 2%nat) /\
  (exists c, fst (processChatCommand conversationId contactId msg loc now st) = ok c /\
             shouldClose c = false) /\
  (exists cmd, get (commands (snd (processChatCommand conversationId contactId msg loc now st)))
                   (conversationId ++ "_" ++ intToText now) = Some cmd /\
               instruction cmd = msg /\ priority (context cmd) = 2%nat).
Proof.
  unfold processVoiceCommand, processChatCommand, processCommand; cbn [fst snd commands].
  split; [eexists; split; reflexivity|].
  split; [eexists; split; [apply get_put_same|split; reflexivity]|].
  split; [eexists; split; reflexivity|].
  eexists; split; [apply get_put_same|split; reflexivity].
Qed.

(** X17: [processAdminCommand] always answers ok with the Completed result
    of [processCommand] as its details and stores the instruction with
    priority 3; interpreted in that stored context, the instruction needs
    approval unless it is a Create of an object other than a workflow,
    campaign or automation. *)
Theorem admin_command_priority_three userId loc instr now st :
  (exists a, fst (processAdminCommand userId loc instr now st) = ok a /\
             status (details a) = Completed /\
             commandId (details a) = (userId ++ "_" ++ intToText now) /\
             alerts a = []) /\
  exists cmd,
    get (commands (snd (processAdminCommand userId loc instr now st)))
        (userId ++ "_" ++ intToText now) = Some cmd /\
    instruction cmd = instr /\ priority (context cmd) = 3%nat /\
    requiresApproval (interpretCommand instr (context cmd)) =
      match intent (interpretCommand instr (context cmd)) with
      | Create o => Text.mem o ["workflow"; "campaign"; "automation"]
      | _ => true
      end.
Proof.
  unfold processAdminCommand, processCommand; cbn [fst snd commands].
  split; [eexists; split; [reflexivity|repeat split]|].
  eexists. split; [apply get_put_same|]. split; [reflexivity|]. split; [reflexivity|].
  rewrite requiresApproval_interpretCommand.
  destruct (intent (interpretCommand instr _)) as [o| | | | |]; try reflexivity.
  simpl. destruct (String.eqb o "workflow"), (String.eqb o "campaign"),
    (String.eqb o "automation"); reflexivity.
Qed.

(* ------------------------------------------------------------------ *)
(** ** Channel formatting (GHLIntegration) *)

Lemma prefix_app q s t : prefix q s = true -> prefix q (s ++ t) = true.
Proof.
  revert s. induction q as [|a q IH]; intros s H; [destruct (s ++ t); reflexivity|].
  destruct s as [|b s]; simpl in H; [discriminate|]. simpl.
  destruct (ascii_dec a b); [apply IH; exact H|discriminate].
Qed.

Lemma contains_self s : Text.contains s s = true.
Proof.
  destruct s as [|a s]; [reflexivity|]. simpl.
  destruct (ascii_dec a a); [|congruence]. rewrite prefix_refl. reflexivity.
Qed.

Lemma contains_cons a s q :
  Text.contains (String a s) q = prefix q (String a s) || Text.contains s q.
Proof. reflexivity. Qed.

Lemma contains_app_r p s q : Text.contains s q = true -> Text.contains (p ++ s) q = true.
Proof.
  intro H. induction p as [|a p IH]; [exact H|].
  simpl. rewrite IH. apply orb_true_r.
Qed.

Lemma contains_app_l s t q : Text.contains s q = true -> Text.contains (s ++ t) q = true.
Proof.
  induction s as [|a s IH]; intro H.
  - destruct q; [destruct t; reflexivity|]. discriminate H.
  - rewrite contains_cons in H.
    replace (String a s ++ t) with (String a (s ++ t)) by reflexivity.
    rewrite contains_cons.
    apply orb_true_iff in H as [H|H].
    + replace (String a (s ++ t)) with (String a s ++ t) by reflexivity.
      rewrite prefix_app by exact H. reflexivity.
    + rewrite IH by exact H. apply orb_true_r.
Qed.

Lemma contains_join sep xs x : In x xs -> Text.contains (String.concat sep xs) x = true.
Proof.
  induction xs as [|y ys IH]; [intros []|]. intros [Hy|Hx]; [subst y|].
  - destruct ys as [|y' ys']; [apply contains_self|].
    change (String.concat sep (x :: y' :: ys')) with (x ++ sep ++ String.concat sep (y' :: ys')).
    apply contains_app_l, contains_self.
  - destruct ys as [|y' ys']; [destruct Hx|].
    change (String.concat sep (y :: y' :: ys')) with (y ++ sep ++ String.concat sep (y' :: ys')).
    apply contains_app_r, contains_app_r, IH, Hx.
Qed.

(** X18: the chat response never closes the chat and has no attachments;
    its quick replies are never empty and each is shorter than 30
    characters: the next steps shorter than 30 when there is one, the
    three default replies otherwise. *)
Theorem chat_response_quick_replies r :
  let c := formatChatResponse r in
  shouldClose c = false /\ attachments c = [] /\ quickReplies c <> [] /\
  Forall (fun q => (String.length q < 30)%nat) (quickReplies c) /\
  quickReplies c =
    match filter (fun step => (String.length step <? 30)%nat) (nextSteps r) with
    | [] => ["Got it!"; "Tell me more"; "What's next?"]
    | short => short
    end.
Proof.
  cbv zeta. unfold formatChatResponse, generateQuickReplies; cbn [shouldClose attachments quickReplies].
  split; [reflexivity|]. split; [reflexivity|].
  destruct (filter (fun step => (String.length step <? 30)%nat) (nextSteps r)) as [|s ss] eqn:E.
  - split; [discriminate|]. split; [repeat constructor; simpl; lia|reflexivity].
  - split; [discriminate|]. split; [|reflexivity].
    apply Forall_forall. intros x Hx. rewrite <- E in Hx.
    apply filter_In in Hx as [_ Hx]. apply Nat.ltb_lt, Hx.
Qed.

(** X19: the voice response holds one voice action per executed action,
    and offers the transfer number exactly when some executed action is a
    ["transfer_to_human"]. *)
Theorem voice_actions_and_transfer r :
  List.length (v_actions (formatVoiceResponse r)) = List.length (actions r) /\
  (transferNumber (formatVoiceResponse r) = Some "+1234567890" <->
   exists a, In a (actions r) /\ actionType a = "transfer_to_human") /\
  (transferNumber (formatVoiceResponse r) = None <->
   forall a, In a (actions r) -> actionType a <> "transfer_to_human").
Proof.
  unfold formatVoiceResponse, generateVoiceActions, getTransferNumber;
    cbn [v_actions transferNumber].
  split; [apply length_map|].
  destruct (existsb (fun action => String.eqb (actionType action) "transfer_to_human")
              (actions r)) eqn:E.
  - apply existsb_exists in E as [a [Ha Ht]]. apply String.eqb_eq in Ht.
    split; [split; [intros _; exists a; auto|reflexivity]|].
    split; [discriminate|]. intro H. exfalso. exact (H a Ha Ht).
  - split.
    + split; [discriminate|]. intros [a [Ha Ht]].
      assert (existsb (fun action => String.eqb (actionType action) "transfer_to_human")
                (actions r) = true) as E'
        by (apply existsb_exists; exists a; rewrite Ht; auto).
      congruence.
    + split; [|reflexivity]. intros _ a Ha Ht.
      assert (existsb (fun action => String.eqb (actionType action) "transfer_to_human")
                (actions r) = true) as E'
        by (apply existsb_exists; exists a; rewrite Ht; auto).
      congruence.
Qed.


Lemma append_cancel_l p a b : p ++ a = p ++ b -> a = b.
Proof. induction p as [|c p IH]; simpl; [auto|]. intro H. injection H. exact IH. Qed.

(** X21: [mapEventToCommand] is injective: two event types with the same
    description are equal (known events have distinct descriptions, and
    every other event is echoed after ["Unknown event: "]). *)
Theorem mapEventToCommand_injective e1 e2 :
  mapEventToCommand e1 = mapEventToCommand e2 -> e1 = e2.
Proof.
  unfold mapEventToCommand.
  repeat match goal with
         | |- context [String.eqb e1 ?l] => destruct (String.eqb_spec e1 l)
         end;
  repeat match goal with
         | |- context [String.eqb e2 ?l] => destruct (String.eqb_spec e2 l)
         end;
  subst; intro H; try reflexivity; try (simpl in H; discriminate H);
  apply append_cancel_l in H; exact H.
Qed.

Lemma mapEventToCommand_injective_witness :
  mapEventToCommand "form.submitted" = mapEventToCommand "form.submitted" /\
  "form.submitted" = "form.submitted".
Proof. split; [reflexivity|]. apply mapEventToCommand_injective. reflexivity. Defined.

(** X22: every insight of a Completed result appears in its chat message,
    and every insight of any result appears in its workflow response. *)
Theorem insights_in_chat_and_workflow r :
  (status r = Completed ->
   Forall (fun x => Text.contains (message (formatChatResponse r)) x = true) (insights r)) /\
  Forall (fun x => Text.contains (formatWorkflowResponse r) x = true) (insights r).
Proof.
  split.
  - intro Hs. apply Forall_forall. intros x Hx.
    unfold formatChatResponse, generateChatMessage; cbn [message]. rewrite Hs.
    do 4 apply contains_app_r. apply contains_join, Hx.
  - apply Forall_forall. intros x Hx. unfold formatWorkflowResponse.
    do 14 apply contains_app_r. apply contains_app_l, contains_join, Hx.
Qed.

Lemma insights_in_chat_and_workflow_witness :
  status sampleResult = Completed /\
  Forall (fun x => Text.contains (message (formatChatResponse sampleResult)) x = true)
         (insights sampleResult).
Proof.
  split; [reflexivity |].
  apply (proj1 (insights_in_chat_and_workflow sampleResult)). reflexivity.
Defined.
